(** * Very-Simple-USB-Relay: the HID relay controller of [relay.py]

    A shallow embedding of the [Relay] class and of the command-line entry
    point, followed by the properties of the report codec, of the
    getter/setter [state] and of the argument handling.

    Python integers are [Z], strings are [string], a list of integers is
    [list Z].  Exceptions are values of [exn]; a computation that talks to
    the HID device threads the device handle and the registered exit
    handlers, and records every call made on the device. *)

From Stdlib Require Import ZArith List Bool Ascii String Lia.
Import ListNotations.

Local Open Scope Z_scope.

(** ** Exceptions and pure fallible computations *)

Inductive exn : Type :=
| IndexError       (* list index out of range *)
| ValueError       (* int() on a malformed literal; hid on a closed handle *)
| AttributeError   (* attribute missing on an object *)
| TypeError        (* int() on None *)
| SystemExit (code : Z)  (* argparse leaving the process *)
| IOError.         (* raised by the hid module on a transport failure *)

Definition result (A : Type) : Type := (exn + A)%type.

Definition ok {A} (a : A) : result A := inr a.
Definition raise {A} (e : exn) : result A := inl e.

Definition rbind {A B} (r : result A) (k : A -> result B) : result B :=
  match r with
  | inl e => inl e
  | inr a => k a
  end.

(** [[f(x) for x in xs]] where [f] may raise: the first exception wins. *)
Fixpoint list_comprehension {A B} (f : A -> result B) (xs : list A)
  : result (list B) :=
  match xs with
  | [] => ok []
  | x :: rest =>
      rbind (f x) (fun y =>
      rbind (list_comprehension f rest) (fun ys => ok (y :: ys)))
  end.

(** ** Python built-ins used by the program *)

Module Py.

(** [xs[i]]: a negative index counts from the end, anything outside
    [-len, len) raises IndexError. *)
Definition getitem {A} (xs : list A) (i : Z) : result A :=
  let len := Z.of_nat (List.length xs) in
  let j := if i <? 0 then i + len else i in
  if (j <? 0) || (len <=? j) then raise IndexError
  else match nth_error xs (Z.to_nat j) with
       | Some x => ok x
       | None => raise IndexError
       end.

(** [bool(n)] on an integer. *)
Definition bool_of_int (n : Z) : bool := negb (n =? 0).

(** Binary digits of a positive number, most significant first,
    in front of [acc]. *)
Fixpoint bin_pos (p : positive) (acc : list ascii) : list ascii :=
  match p with
  | xH => "1"%char :: acc
  | xO q => bin_pos q ("0"%char :: acc)
  | xI q => bin_pos q ("1"%char :: acc)
  end.

(** The digits of [format(abs(n), 'b')]. *)
Definition bin_digits (n : Z) : list ascii :=
  match n with
  | Z0 => ["0"%char]
  | Zpos p => bin_pos p []
  | Zneg p => bin_pos p []
  end.

Definition zfill (width : nat) (ds : list ascii) : list ascii :=
  repeat "0"%char (width - List.length ds) ++ ds.

(** ['{0:08b}'.format(n)]: minimum width 8, zero padded after the sign. *)
Definition format_08b (n : Z) : string :=
  string_of_list_ascii
    (if n <? 0 then "-"%char :: zfill 7 (bin_digits n)
     else zfill 8 (bin_digits n)).

(** [list(s)] *)
Definition list_of_str (s : string) : list ascii := list_ascii_of_string s.

(** Whitespace that [int()] strips from an ASCII string: tab, line feed,
    vertical tab, form feed, carriage return and space. *)
Definition is_space (c : ascii) : bool :=
  let n := nat_of_ascii c in
  (((9 <=? n) && (n <=? 13)) || (n =? 32))%nat.

Definition digit_of (c : ascii) : option Z :=
  let n := nat_of_ascii c in
  if ((48 <=? n) && (n <=? 57))%nat then Some (Z.of_nat n - 48) else None.

Fixpoint drop_spaces (s : list ascii) : list ascii :=
  match s with
  | c :: rest => if is_space c then drop_spaces rest else s
  | [] => []
  end.

Definition strip (s : list ascii) : list ascii :=
  rev (drop_spaces (rev (drop_spaces s))).

(** Decimal digits with single underscores allowed between digits. *)
Fixpoint parse_digits (s : list ascii) (acc : Z) (after_digit : bool)
  : option Z :=
  match s with
  | [] => if after_digit then Some acc else None
  | c :: rest =>
      if Ascii.eqb c "_"%char then
        if after_digit then parse_digits rest acc false else None
      else
        match digit_of c with
        | Some d => parse_digits rest (10 * acc + d) true
        | None => None
        end
  end.

(** The default of [sys.get_int_max_str_digits()]. *)
Definition max_str_digits : N := 4300.

(** The number of digits of a literal, underscores and sign left out. *)
Fixpoint digit_count (s : list ascii) : N :=
  match s with
  | [] => 0%N
  | c :: rest =>
      match digit_of c with
      | Some _ => N.succ (digit_count rest)
      | None => digit_count rest
      end
  end.

(** [int(s)] on an ASCII string, base 10: blanks stripped at both ends, an
    optional sign, digits with single underscores between them, and no
    more digits than the interpreter's limit.  Text outside ASCII (other
    scripts' digits and blanks) is not represented by [string]. *)
Definition int (s : string) : result Z :=
  let body := strip (list_of_str s) in
  let parsed :=
    match body with
    | c :: rest =>
        if Ascii.eqb c "-"%char then option_map Z.opp (parse_digits rest 0 false)
        else if Ascii.eqb c "+"%char then parse_digits rest 0 false
        else parse_digits body 0 false
    | [] => None
    end in
  match parsed with
  | Some n =>
      if (max_str_digits <? digit_count body)%N then raise ValueError
      else ok n
  | None => raise ValueError
  end.

(** [str(b)] on a boolean. *)
Definition str_of_bool (b : bool) : string :=
  if b then "True"%string else "False"%string.

(** [", ".join(items)] *)
Fixpoint join_comma (items : list string) : string :=
  match items with
  | [] => ""%string
  | [x] => x
  | x :: rest => (x ++ ", " ++ join_comma rest)%string
  end.

End Py.

(** ** The report codec *)

(** [Relay.get_switch_statuses_from_report]: the 8th number of the report,
    rendered in binary, digit by digit, reversed. *)
Definition get_switch_statuses_from_report (report : list Z)
  : result (list Z) :=
  rbind (Py.getitem report 7) (fun switch_statuses =>
  rbind (list_comprehension
           (fun x => Py.int (String x EmptyString))
           (Py.list_of_str (Py.format_08b switch_statuses)))
        (fun switch_statuses => ok (rev switch_statuses))).

(** ** The HID device

    [hid.device] comes from the hidapi binding, not from this program: it is
    an interface here.  Every method takes the handle and gives back its
    result, or the exception it raised, with the handle afterwards. *)

(** What [Relay.__init__] receives as vendor and product id. *)
Inductive py_value : Type :=
| VInt (n : Z)
| VBool (b : bool).

Class HidDevice (H : Type) : Type := {
  hid_device : H;                                    (* hid.device() *)
  hid_open : py_value -> py_value -> H -> result unit * H;
  hid_set_nonblocking : Z -> H -> result Z * H;
  hid_close : H -> result unit * H;
  hid_send_feature_report : list Z -> H -> result Z * H;
  hid_get_feature_report : Z -> Z -> H -> result (list Z) * H
}.

(** The calls a run makes on the device, in order. *)
Inductive hid_call : Type :=
| CallOpen (vendor_id product_id : py_value)
| CallSetNonblocking (v : Z)
| CallClose
| CallSendFeatureReport (message : list Z)
| CallGetFeatureReport (report_num max_length : Z).

(** The feature-report writes among the calls. *)
Fixpoint sent_messages (cs : list hid_call) : list (list Z) :=
  match cs with
  | [] => []
  | CallSendFeatureReport m :: rest => m :: sent_messages rest
  | _ :: rest => sent_messages rest
  end.

(** Callbacks given to [atexit.register]. *)
Inductive exit_handler : Type :=
| RelayCleanup.   (* the bound method self.cleanup *)

(** What [state] returns: a list of booleans for port 0, one boolean
    otherwise. *)
Inductive status : Type :=
| StatusAll (l : list bool)
| StatusOne (b : bool).

Definition str_of_status (s : status) : string :=
  match s with
  | StatusOne b => Py.str_of_bool b
  | StatusAll l => ("[" ++ Py.join_comma (map Py.str_of_bool l) ++ "]")%string
  end.

(** A command line made of the four declared options only, each with its
    value and given at most once: what was given for each; [None] is a flag
    that was not given.  A request for help and a malformed command line,
    on which the parser leaves the process by itself, are not command lines
    of this type. *)
Record command_line : Type := {
  flag_port : option string;
  flag_switch : option string;
  flag_idVvendor : option string;
  flag_idProduct : option string
}.

(** An [argparse.Namespace]: attribute names with their values. *)
Definition Namespace : Type := list (string * option string).

Fixpoint getattr (ns : Namespace) (name : string) : result (option string) :=
  match ns with
  | [] => raise AttributeError
  | (k, v) :: rest => if String.eqb k name then ok v else getattr rest name
  end.

(** [parser.parse_args()] on such a command line; the attribute of an
    option is named after its flag.  The required option missing ends the
    process with status 2. *)
Definition parse_args (argv : command_line) : result Namespace :=
  match flag_port argv with
  | None => raise (SystemExit 2)
  | Some p =>
      ok [("port"%string, Some p);
          ("switch"%string, flag_switch argv);
          ("idVvendor"%string, flag_idVvendor argv);
          ("idProduct"%string, flag_idProduct argv)]
  end.

(** Truth value of an attribute: [None] and the empty string are false. *)
Definition truthy (v : option string) : bool :=
  match v with
  | None => false
  | Some s => negb (String.eqb s "")
  end.

Definition is_not_None (v : option string) : bool :=
  match v with
  | None => false
  | Some _ => true
  end.

(** [int(v)] on an attribute value. *)
Definition int_of_attr (v : option string) : result Z :=
  match v with
  | None => raise TypeError
  | Some s => Py.int s
  end.

(** [v is not None if v else default] *)
Definition override_or_default (v : option string) (default : Z) : py_value :=
  if truthy v then VBool (is_not_None v) else VInt default.

Section Relay.

Context {H : Type} `{HidDevice H}.

(** The process: the device handle held by the relay object, the
    registered exit handlers (most recent first) and the lines printed. *)
Record world : Type := {
  device_instance : H;
  atexit_handlers : list exit_handler;
  stdout : list string
}.

Definition set_device (h : H) (w : world) : world :=
  {| device_instance := h;
     atexit_handlers := atexit_handlers w;
     stdout := stdout w |}.

(** A run: the value or the exception, the process afterwards and the
    device calls made on the way. *)
Record outcome (A : Type) : Type := {
  value : result A;
  final : world;
  calls : list hid_call
}.
Arguments value {A} _.
Arguments final {A} _.
Arguments calls {A} _.

Definition M (A : Type) : Type := world -> outcome A.

Definition ret {A} (a : A) : M A :=
  fun w => {| value := ok a; final := w; calls := [] |}.

Definition lift {A} (r : result A) : M A :=
  fun w => {| value := r; final := w; calls := [] |}.

Definition bind {A B} (m : M A) (k : A -> M B) : M B :=
  fun w =>
    let o := m w in
    match value o with
    | inl e => {| value := inl e; final := final o; calls := calls o |}
    | inr a =>
        let o' := k a (final o) in
        {| value := value o'; final := final o';
           calls := calls o ++ calls o' |}
    end.

(** A method call on [self.device_instance]. *)
Definition call_hid {A} (c : hid_call) (method : H -> result A * H) : M A :=
  fun w =>
    let (r, h) := method (device_instance w) in
    {| value := r; final := set_device h w; calls := [c] |}.

Definition atexit_register (f : exit_handler) : M unit :=
  fun w =>
    {| value := ok tt;
       final := {| device_instance := device_instance w;
                   atexit_handlers := f :: atexit_handlers w;
                   stdout := stdout w |};
       calls := [] |}.

Definition print (line : string) : M unit :=
  fun w =>
    {| value := ok tt;
       final := {| device_instance := device_instance w;
                   atexit_handlers := atexit_handlers w;
                   stdout := stdout w ++ [line] |};
       calls := [] |}.

End Relay.

Arguments world H : clear implicits.
Arguments outcome H A : clear implicits.
Arguments M H A : clear implicits.
Arguments value {H A} _.
Arguments final {H A} _.
Arguments calls {H A} _.

Declare Scope relay_scope.
Notation "x <- m ;; k" := (bind m (fun x => k))
  (at level 61, m at next level, right associativity) : relay_scope.
Notation "m ;; k" := (bind m (fun _ => k))
  (at level 61, right associativity) : relay_scope.

(** ** The [Relay] class *)

Section RelayMethods.

Context {H : Type} `{HidDevice H}.
Local Open Scope relay_scope.

(** [Relay.cleanup] *)
Definition cleanup : M H unit :=
  call_hid CallClose hid_close.

(** [Relay.__init__] *)
Definition Relay_init (idvendor idproduct : py_value) : M H unit :=
  (fun w => ret tt (set_device hid_device w)) ;;
  call_hid (CallOpen idvendor idproduct) (hid_open idvendor idproduct) ;;
  call_hid (CallSetNonblocking 1) (hid_set_nonblocking 1) ;;
  atexit_register RelayCleanup.

(** [Relay.send_feature_report] *)
Definition send_feature_report (message : list Z) : M H unit :=
  call_hid (CallSendFeatureReport message)
           (hid_send_feature_report message) ;;
  ret tt.

(** [Relay.get_feature_report] *)
Definition get_feature_report : M H (list Z) :=
  let feature := 1 in
  let length := 8 in
  call_hid (CallGetFeatureReport feature length)
           (hid_get_feature_report feature length).

(** The [message] that [Relay.state] builds when [turnon] is given. *)
Definition message (relayport : Z) (turnon : bool) : list Z :=
  if relayport =? 0 then
    if turnon then [0xFE] else [0xFC]
  else
    if turnon then [0xFF; relayport] else [0xFD; relayport].

(** [Relay.state] *)
Definition state (relayport : Z) (turnon : option bool) : M H status :=
  match turnon with
  | Some turnon => send_feature_report (message relayport turnon)
  | None => ret tt
  end ;;
  if relayport =? 0 then
    report <- get_feature_report ;;
    switch_statuses <- lift (get_switch_statuses_from_report report) ;;
    ret (StatusAll (map Py.bool_of_int switch_statuses))
  else
    report <- get_feature_report ;;
    switch_statuses <- lift (get_switch_statuses_from_report report) ;;
    switch_status <- lift (Py.getitem switch_statuses (relayport - 1)) ;;
    ret (StatusOne (Py.bool_of_int switch_status)).

(** The [__main__] block from [port = int(args.port)] on. *)
Definition main_block (args : Namespace) : M H unit :=
  port_attr <- lift (getattr args "port") ;;
  port <- lift (int_of_attr port_attr) ;;
  switch <- lift (getattr args "switch") ;;
  let switchOn :=
    match switch with
    | Some s =>
        if String.eqb s "False" then Some false
        else if String.eqb s "True" then Some true
        else None
    | None => None
    end in
  vendor_attr <- lift (getattr args "idVendor") ;;
  let idvendor := override_or_default vendor_attr 0x16c0 in
  product_attr <- lift (getattr args "idProduct") ;;
  let idproduct := override_or_default product_attr 0x05df in
  Relay_init idvendor idproduct ;;
  st <- state port switchOn ;;
  print (str_of_status st).

(** The [__main__] block. *)
Definition main (argv : command_line) : M H unit :=
  args <- lift (parse_args argv) ;;
  main_block args.

(** Interpreter shutdown: the registered handlers run, most recent
    first; an exception in one of them does not stop the others. *)
Fixpoint run_exit_handlers (hs : list exit_handler) : M H unit :=
  match hs with
  | [] => ret tt
  | RelayCleanup :: rest =>
      fun w =>
        let o := cleanup w in
        let o' := run_exit_handlers rest (final o) in
        {| value := value o'; final := final o';
           calls := calls o ++ calls o' |}
  end.

(** Running the file as a script: the [__main__] block, then shutdown. *)
Definition script (argv : command_line) : M H unit :=
  fun w =>
    let o := main argv w in
    let o' := run_exit_handlers (atexit_handlers (final o)) (final o) in
    {| value := value o; final := final o';
       calls := calls o ++ calls o' |}.

End RelayMethods.

(** ** A simulated board

    An 8-channel board behind the [hid.device] interface, to run the
    program on: the relay bits, and whether the handle is open.  A method
    on a closed handle raises ValueError, as the binding does; [close] on a
    closed handle does nothing. *)

Module SimBoard.

Record board : Type := {
  is_open : bool;
  relays : Z
}.

Definition int_of_value (v : py_value) : Z :=
  match v with
  | VInt n => n
  | VBool b => if b then 1 else 0
  end.

Definition apply_message (message : list Z) (bits : Z) : Z :=
  match message with
  | [0xFE] => 255
  | [0xFC] => 0
  | [0xFF; n] =>
      if (1 <=? n) && (n <=? 8) then Z.lor bits (Z.shiftl 1 (n - 1)) else bits
  | [0xFD; n] =>
      if (1 <=? n) && (n <=? 8) then Z.land bits (Z.lxor 255 (Z.shiftl 1 (n - 1)))
      else bits
  | _ => bits
  end.

Definition when_open {A} (b : board) (r : A) (b' : board)
  : result A * board :=
  if is_open b then (ok r, b') else (raise ValueError, b).

#[global] Instance sim_hid : HidDevice board := {|
  hid_device := {| is_open := false; relays := 0 |};
  hid_open := fun v p b =>
    if (int_of_value v =? 0x16c0) && (int_of_value p =? 0x05df)
    then (ok tt, {| is_open := true; relays := relays b |})
    else (raise IOError, b);
  hid_set_nonblocking := fun _ b => when_open b 0 b;
  hid_close := fun b => (ok tt, {| is_open := false; relays := relays b |});
  hid_send_feature_report := fun message b =>
    when_open b (Z.of_nat (List.length message))
      {| is_open := true; relays := apply_message message (relays b) |};
  hid_get_feature_report := fun _ _ b =>
    when_open b [76; 72; 67; 88; 73; 0; 0; relays b] b
|}.

(** A process holding an open board with the given relay bits. *)
Definition opened (bits : Z) : world board :=
  {| device_instance := {| is_open := true; relays := bits |};
     atexit_handlers := [RelayCleanup];
     stdout := [] |}.

(** A process before the relay object exists. *)
Definition fresh : world board :=
  {| device_instance := hid_device; atexit_handlers := []; stdout := [] |}.

End SimBoard.

(** ** A replaying device

    A device that accepts every call and answers each read with the next
    report of a prepared list (an empty report once the list is used up),
    to run the program on reports a board would not produce. *)

Module Replay.

Definition tape : Type := list (list Z).

#[global] Instance replay_hid : HidDevice tape := {|
  hid_device := [];
  hid_open := fun _ _ t => (ok tt, t);
  hid_set_nonblocking := fun _ t => (ok 0, t);
  hid_close := fun t => (ok tt, t);
  hid_send_feature_report := fun message t =>
    (ok (Z.of_nat (List.length message)), t);
  hid_get_feature_report := fun _ _ t =>
    match t with
    | report :: rest => (ok report, rest)
    | [] => (ok [], [])
    end
|}.

(** A process whose device will answer with the given reports. *)
Definition loaded (reports : tape) : world tape :=
  {| device_instance := reports; atexit_handlers := []; stdout := [] |}.

End Replay.

(** ** Reading the decoded bits back (for the codec properties)

    The two renderings the decode is compared with: the decoded vector
    written as a string of binary digits, and the eight bits of a byte,
    most significant first. *)

Definition bits_to_chars (bits : list Z) : list ascii :=
  map (fun z => if z =? 0 then "0"%char else "1"%char) bits.

Definition bits_of_byte (b : Z) : list ascii :=
  map (fun i => if Z.testbit b i then "1"%char else "0"%char)
      [7; 6; 5; 4; 3; 2; 1; 0].

Definition bit_of_char (c : ascii) : Z :=
  if Ascii.eqb c "1"%char then 1 else 0.

Definition is_bit_char (c : ascii) : Prop := c = "0"%char \/ c = "1"%char.

(** The digits of a positive number, least significant first. *)
Fixpoint lsb_digits (p : positive) : list ascii :=
  match p with
  | xH => ["1"%char]
  | xO q => "0"%char :: lsb_digits q
  | xI q => "1"%char :: lsb_digits q
  end.

(** The digits of a non-negative number: those of [lsb_digits], or a
    single zero. *)
Definition lsb_of (n : Z) : list ascii :=
  match n with
  | Zpos p => lsb_digits p
  | _ => ["0"%char]
  end.

(** A command line that gives both identifiers:
    [--port 1 --idVvendor 5824 --idProduct 1503]. *)
Definition flags_with_ids : command_line :=
  {| flag_port := Some "1"%string;
     flag_switch := None;
     flag_idVvendor := Some "5824"%string;
     flag_idProduct := Some "1503"%string |}.

(** The number whose binary digits, least significant first, are
    [bits]. *)
Fixpoint byte_of_bits (bits : list Z) : Z :=
  match bits with
  | [] => 0
  | x :: rest => x + 2 * byte_of_bits rest
  end.

(** What [state] makes of a report once it is read: both branches of the
    final [if], without the device. *)
Definition status_of_report (relayport : Z) (report : list Z) : result status :=
  rbind (get_switch_statuses_from_report report) (fun switch_statuses =>
  if relayport =? 0 then ok (StatusAll (map Py.bool_of_int switch_statuses))
  else rbind (Py.getitem switch_statuses (relayport - 1)) (fun switch_status =>
       ok (StatusOne (Py.bool_of_int switch_status)))).

(** * Properties *)

(** ** Running the model *)

Example decode_fixture :
  get_switch_statuses_from_report [76; 72; 67; 88; 73; 0; 0; 2]
  = ok [0; 1; 0; 0; 0; 0; 0; 0].
Proof. reflexivity. Qed.

Example decode_wide :
  get_switch_statuses_from_report [0; 0; 0; 0; 0; 0; 0; 256]
  = ok [0; 0; 0; 0; 0; 0; 0; 0; 1].
Proof. reflexivity. Qed.

Example decode_negative :
  get_switch_statuses_from_report [0; 0; 0; 0; 0; 0; 0; -2]
  = raise ValueError.
Proof. reflexivity. Qed.

Example decode_short :
  get_switch_statuses_from_report [76; 72; 67] = raise IndexError.
Proof. reflexivity. Qed.

Example int_examples :
  Py.int "3" = ok 3 /\ Py.int " -12 " = ok (-12) /\ Py.int "1_000" = ok 1000
  /\ Py.int "0x10" = raise ValueError /\ Py.int "" = raise ValueError
  /\ Py.int "_1" = raise ValueError /\ Py.int "-" = raise ValueError.
Proof. repeat split. Qed.

Example session_on_board :
  let o := bind (Relay_init (VInt 0x16c0) (VInt 0x05df))
                (fun _ => state 2 (Some true)) SimBoard.fresh in
  value o = ok (StatusOne true)
  /\ calls o = [CallOpen (VInt 0x16c0) (VInt 0x05df); CallSetNonblocking 1;
                CallSendFeatureReport [0xFF; 2]; CallGetFeatureReport 1 8]
  /\ atexit_handlers (final o) = [RelayCleanup].
Proof. repeat split. Qed.

Example script_on_board :
  let o := script flags_with_ids SimBoard.fresh in
  value o = raise AttributeError /\ calls o = [] /\ stdout (final o) = [].
Proof. repeat split. Qed.

Example status_strings :
  str_of_status (StatusOne true) = "True"%string
  /\ str_of_status (StatusAll [false; true; false])
     = "[False, True, False]"%string.
Proof. repeat split. Qed.

Example int_blanks_and_limit :
  Py.int (String (ascii_of_nat 31) "5") = raise ValueError
  /\ Py.int (String (ascii_of_nat 11) "5 ") = ok 5
  /\ Py.int "+ 5" = raise ValueError
  /\ Py.int "1__0" = raise ValueError
  /\ Py.int (string_of_list_ascii (repeat "0"%char 4301)) = raise ValueError
  /\ Py.int (string_of_list_ascii ("-"%char :: repeat "0"%char 4300)) = ok 0.
Proof. repeat split; vm_compute; reflexivity. Qed.

(** ** The binary rendering *)

Lemma bin_pos_lsb p : forall acc, Py.bin_pos p acc = rev (lsb_digits p) ++ acc.
Proof.
  induction p as [q IH | q IH | ]; intros acc; simpl.
  - rewrite IH, <- app_assoc. reflexivity.
  - rewrite IH, <- app_assoc. reflexivity.
  - reflexivity.
Qed.

Lemma lsb_digits_length p : List.length (lsb_digits p) = Pos.size_nat p.
Proof. induction p; simpl; congruence. Qed.

Lemma lsb_digits_bits p : Forall is_bit_char (lsb_digits p).
Proof.
  induction p; simpl; constructor; auto; unfold is_bit_char; auto.
Qed.

Lemma lsb_digits_testbit p : forall i,
  nth i (map bit_of_char (lsb_digits p)) 0
  = Z.b2z (Z.testbit (Zpos p) (Z.of_nat i)).
Proof.
  induction p as [q IH | q IH | ]; intros [| i].
  - reflexivity.
  - change (Zpos q~1) with (2 * Zpos q + 1).
    rewrite Nat2Z.inj_succ, Z.testbit_odd_succ by lia. apply IH.
  - reflexivity.
  - change (Zpos q~0) with (2 * Zpos q).
    rewrite Nat2Z.inj_succ, Z.testbit_even_succ by lia. apply IH.
  - reflexivity.
  - change (Zpos xH) with (2 * 0 + 1).
    rewrite Nat2Z.inj_succ, Z.testbit_odd_succ, Z.testbit_0_l by lia.
    destruct i; reflexivity.
Qed.

Lemma bin_digits_lsb n : 0 <= n -> Py.bin_digits n = rev (lsb_of n).
Proof.
  destruct n as [| p | p]; intros Hn; simpl.
  - reflexivity.
  - rewrite bin_pos_lsb, app_nil_r. reflexivity.
  - lia.
Qed.

Lemma lsb_of_bits n : Forall is_bit_char (lsb_of n).
Proof.
  destruct n; simpl; try apply lsb_digits_bits;
    constructor; auto; unfold is_bit_char; auto.
Qed.

Lemma lsb_of_testbit n i : 0 <= n ->
  nth i (map bit_of_char (lsb_of n)) 0 = Z.b2z (Z.testbit n (Z.of_nat i)).
Proof.
  destruct n as [| p | p]; intros Hn.
  - rewrite Z.testbit_0_l. destruct i as [| [| i]]; reflexivity.
  - apply lsb_digits_testbit.
  - lia.
Qed.

Lemma lsb_of_length_byte n : 0 <= n <= 255 -> (List.length (lsb_of n) <= 8)%nat.
Proof.
  destruct n as [| p | p]; intros Hn; simpl; try lia.
  rewrite lsb_digits_length.
  destruct (Pos.eq_dec p 255) as [-> | Hne]; [simpl; lia |].
  change 8%nat with (Pos.size_nat 255).
  apply Pos.size_nat_monotone. lia.
Qed.

Lemma lsb_of_length_wide n : 255 < n -> (8 < List.length (lsb_of n))%nat.
Proof.
  destruct n as [| p | p]; intros Hn; simpl; try lia.
  rewrite lsb_digits_length.
  destruct (Pos.eq_dec p 256) as [-> | Hne]; [simpl; lia |].
  apply Nat.lt_le_trans with (Pos.size_nat 256); [simpl; lia |].
  apply Pos.size_nat_monotone. lia.
Qed.

(** Digit by digit, [int] reads a binary digit as its value. *)
Lemma comprehension_bits (cs : list ascii) :
  Forall is_bit_char cs ->
  list_comprehension (fun x => Py.int (String x EmptyString)) cs
  = ok (map bit_of_char cs).
Proof.
  induction 1 as [| c cs Hc _ IH]; simpl.
  - reflexivity.
  - rewrite IH. destruct Hc as [-> | ->]; reflexivity.
Qed.

(** What the decode computes on a non-negative 8th element: the digits,
    least significant first, then the padding zeros. *)
Lemma decode_nonneg (report : list Z) (b : Z) :
  Py.getitem report 7 = ok b -> 0 <= b ->
  get_switch_statuses_from_report report
  = ok (map bit_of_char (lsb_of b)
        ++ repeat 0 (8 - List.length (lsb_of b))).
Proof.
  intros Hget Hb. unfold get_switch_statuses_from_report.
  rewrite Hget. simpl rbind. unfold Py.format_08b, Py.list_of_str.
  destruct (Z.ltb_spec b 0) as [Hneg | _]; [lia |].
  rewrite list_ascii_of_string_of_list_ascii.
  unfold Py.zfill. rewrite bin_digits_lsb by assumption.
  rewrite comprehension_bits.
  - simpl rbind. unfold ok. f_equal.
    rewrite map_app, rev_app_distr, map_rev, rev_involutive.
    rewrite length_rev, map_repeat, rev_repeat. reflexivity.
  - apply Forall_app. split.
    + apply Forall_forall. intros c Hc. apply repeat_spec in Hc.
      left. exact Hc.
    + apply Forall_rev, lsb_of_bits.
Qed.

(** ** List indexing *)

Ltac decide_tests :=
  cbv zeta;
  repeat (match goal with
          | |- context [?a <? ?b] => destruct (Z.ltb_spec a b); try lia
          | |- context [?a <=? ?b] => destruct (Z.leb_spec a b); try lia
          end; cbn [orb]).

Lemma getitem_nth {A} (xs : list A) (i : Z) (x : A) :
  0 <= i -> nth_error xs (Z.to_nat i) = Some x -> Py.getitem xs i = ok x.
Proof.
  intros Hi Hnth. unfold Py.getitem.
  assert (Hlen : (Z.to_nat i < List.length xs)%nat)
    by (apply nth_error_Some; congruence).
  destruct (Z.ltb_spec i 0); try lia; decide_tests.
  rewrite Hnth. reflexivity.
Qed.

Lemma getitem_negative {A} (xs : list A) (i : Z) (x : A) :
  i < 0 -> 0 <= i + Z.of_nat (List.length xs) ->
  nth_error xs (Z.to_nat (i + Z.of_nat (List.length xs))) = Some x ->
  Py.getitem xs i = ok x.
Proof.
  intros Hi Hlo Hnth. unfold Py.getitem.
  destruct (Z.ltb_spec i 0); try lia; decide_tests.
  rewrite Hnth. reflexivity.
Qed.

Lemma getitem_out_of_range {A} (xs : list A) (i : Z) :
  Z.of_nat (List.length xs) <= i \/ i < - Z.of_nat (List.length xs) ->
  Py.getitem xs i = raise IndexError.
Proof.
  intros Hi. unfold Py.getitem.
  destruct (Z.ltb_spec i 0); decide_tests; reflexivity.
Qed.

Lemma nth_padded (l : list Z) (k i : nat) :
  nth i (l ++ repeat 0 k) 0 = nth i l 0.
Proof.
  destruct (Nat.lt_ge_cases i (List.length l)) as [Hlt | Hge].
  - apply app_nth1. exact Hlt.
  - rewrite app_nth2 by exact Hge. rewrite nth_repeat.
    symmetry. apply nth_overflow. exact Hge.
Qed.

(** ** Decoding a report *)

(** The decode of a report with a non-negative 8th element, element by
    element. *)
Lemma decode_elements (report : list Z) (b : Z) :
  nth_error report 7 = Some b -> 0 <= b ->
  exists bits,
    get_switch_statuses_from_report report = ok bits
    /\ List.length bits = Nat.max 8 (List.length (lsb_of b))
    /\ Forall (fun x => x = 0 \/ x = 1) bits
    /\ forall i, nth i bits 0 = Z.b2z (Z.testbit b (Z.of_nat i)).
Proof.
  intros Hnth Hb.
  exists (map bit_of_char (lsb_of b)
          ++ repeat 0 (8 - List.length (lsb_of b))).
  split; [| split; [| split]].
  - apply decode_nonneg; [| exact Hb].
    apply getitem_nth; [lia | exact Hnth].
  - rewrite length_app, length_map, repeat_length. lia.
  - apply Forall_app. split.
    + apply Forall_map. eapply Forall_impl; [| apply lsb_of_bits].
      intros c [-> | ->]; auto.
    + apply Forall_forall. intros x Hx. apply repeat_spec in Hx. auto.
  - intros i. rewrite nth_padded. apply lsb_of_testbit. exact Hb.
Qed.

(** C1: for every 8-element report whose 8th element is a byte [b], the
    decode returns exactly 8 bits, element [i] being bit [i] of [b] (least
    significant first); written back as binary digits the result is the
    8-bit rendering of [b] reversed; and the report
    [76,72,67,88,73,0,0,2] decodes to off, on, off, off, off, off, off,
    off. *)
Theorem decode_is_byte_bits_lsb_first :
  (forall (report : list Z) (b : Z),
      List.length report = 8%nat ->
      nth_error report 7 = Some b ->
      0 <= b <= 255 ->
      exists bits,
        get_switch_statuses_from_report report = ok bits
        /\ List.length bits = 8%nat
        /\ (forall i, (i < 8)%nat ->
                      nth_error bits i = Some (Z.b2z (Z.testbit b (Z.of_nat i))))
        /\ bits_to_chars bits = rev (bits_of_byte b))
  /\ (exists bits,
        get_switch_statuses_from_report [76; 72; 67; 88; 73; 0; 0; 2] = ok bits
        /\ bits = [0; 1; 0; 0; 0; 0; 0; 0]
        /\ map Py.bool_of_int bits
           = [false; true; false; false; false; false; false; false]).
Proof.
  split.
  - intros report b _ Hnth Hb.
    destruct (decode_elements report b Hnth) as (bits & Hdec & Hlen & _ & Hbit);
      [lia |].
    assert (Hlen8 : List.length bits = 8%nat).
    { rewrite Hlen. pose proof (lsb_of_length_byte b Hb). lia. }
    exists bits. split; [exact Hdec | split; [exact Hlen8 | split]].
    + intros i Hi. rewrite <- Hbit. apply nth_error_nth'. lia.
    + destruct bits as [| b0 [| b1 [| b2 [| b3 [| b4 [| b5 [| b6 [| b7 [| ? ?]]]]]]]]];
        try discriminate Hlen8.
      unfold bits_to_chars, bits_of_byte. cbn [map rev app].
      remember (Z.testbit b) as tb eqn:Htb. clear Htb Hdec.
      pose proof (Hbit 0%nat) as H0. pose proof (Hbit 1%nat) as H1.
      pose proof (Hbit 2%nat) as H2. pose proof (Hbit 3%nat) as H3.
      pose proof (Hbit 4%nat) as H4. pose proof (Hbit 5%nat) as H5.
      pose proof (Hbit 6%nat) as H6. pose proof (Hbit 7%nat) as H7.
      simpl in H0, H1, H2, H3, H4, H5, H6, H7. subst.
      repeat match goal with
             | |- context [tb ?k] => destruct (tb k)
             end; reflexivity.
  - exists [0; 1; 0; 0; 0; 0; 0; 0]. repeat split.
Qed.

Lemma decode_is_byte_bits_lsb_first_witness :
  exists bits,
    get_switch_statuses_from_report [76; 72; 67; 88; 73; 0; 0; 5] = ok bits
    /\ List.length bits = 8%nat
    /\ (forall i, (i < 8)%nat ->
                  nth_error bits i = Some (Z.b2z (Z.testbit 5 (Z.of_nat i))))
    /\ bits_to_chars bits = rev (bits_of_byte 5).
Proof.
  apply (proj1 decode_is_byte_bits_lsb_first [76; 72; 67; 88; 73; 0; 0; 5] 5).
  - reflexivity.
  - reflexivity.
  - lia.
Defined.

(** C9: the length of the decoded vector depends on the 8th element being
    a byte: in 0..255 the decode returns exactly 8 elements, each 0 or 1;
    above 255 it still returns, with more than 8 elements. *)
Theorem decode_length_needs_byte_range (report : list Z) (b : Z) :
  nth_error report 7 = Some b ->
  (0 <= b <= 255 ->
   exists bits,
     get_switch_statuses_from_report report = ok bits
     /\ List.length bits = 8%nat
     /\ Forall (fun x => x = 0 \/ x = 1) bits)
  /\ (255 < b ->
      exists bits,
        get_switch_statuses_from_report report = ok bits
        /\ (8 < List.length bits)%nat).
Proof.
  intros Hnth. split; intros Hb.
  - destruct (decode_elements report b Hnth) as (bits & Hdec & Hlen & H01 & _);
      [lia |].
    exists bits. split; [exact Hdec | split; [| exact H01]].
    rewrite Hlen. pose proof (lsb_of_length_byte b Hb). lia.
  - destruct (decode_elements report b Hnth) as (bits & Hdec & Hlen & _);
      [lia |].
    exists bits. split; [exact Hdec |].
    rewrite Hlen. pose proof (lsb_of_length_wide b Hb). lia.
Qed.

Lemma decode_length_needs_byte_range_witness :
  (exists bits,
      get_switch_statuses_from_report [76; 72; 67; 88; 73; 0; 0; 200] = ok bits
      /\ List.length bits = 8%nat
      /\ Forall (fun x => x = 0 \/ x = 1) bits)
  /\ (exists bits,
        get_switch_statuses_from_report [76; 72; 67; 88; 73; 0; 0; 300] = ok bits
        /\ (8 < List.length bits)%nat).
Proof.
  split.
  - apply (decode_length_needs_byte_range [76; 72; 67; 88; 73; 0; 0; 200] 200);
      [reflexivity | lia].
  - apply (decode_length_needs_byte_range [76; 72; 67; 88; 73; 0; 0; 300] 300);
      [reflexivity | lia].
Defined.

Lemma decode_negative_raises (report : list Z) (b : Z) :
  Py.getitem report 7 = ok b -> b < 0 ->
  get_switch_statuses_from_report report = raise ValueError.
Proof.
  intros Hget Hb. unfold get_switch_statuses_from_report.
  rewrite Hget. simpl rbind. unfold Py.format_08b, Py.list_of_str.
  destruct (Z.ltb_spec b 0) as [_ | ?]; [| lia].
  rewrite list_ascii_of_string_of_list_ascii. reflexivity.
Qed.

Lemma getitem_ok_nth {A} (xs : list A) (i : Z) (x : A) :
  0 <= i -> Py.getitem xs i = ok x -> nth_error xs (Z.to_nat i) = Some x.
Proof.
  intros Hi. unfold Py.getitem.
  destruct (Z.ltb_spec i 0); try lia; decide_tests; try discriminate.
  destruct (nth_error xs (Z.to_nat i)); [| discriminate].
  unfold ok. congruence.
Qed.

(** A decode that returns, returns at least 8 elements. *)
Lemma decode_ok_length (report bits : list Z) :
  get_switch_statuses_from_report report = ok bits ->
  (8 <= List.length bits)%nat.
Proof.
  intros Hdec.
  destruct (Py.getitem report 7) as [e | b] eqn:Hget.
  - unfold get_switch_statuses_from_report in Hdec. rewrite Hget in Hdec.
    discriminate Hdec.
  - destruct (Z.lt_ge_cases b 0) as [Hneg | Hpos].
    + rewrite (decode_negative_raises report b Hget Hneg) in Hdec.
      discriminate Hdec.
    + apply getitem_ok_nth in Hget; [| lia].
      destruct (decode_elements report b Hget Hpos) as (bits' & Hdec' & Hlen & _).
      rewrite Hdec in Hdec'. injection Hdec' as <-. lia.
Qed.

(** ** The getter/setter *)

Section StateProperties.

Context {H : Type} `{HidDevice H}.

(** A query is one feature-report read and nothing else. *)
Lemma state_query_run (relayport : Z) (w : world H) :
  state relayport None w
  = {| value := rbind (fst (hid_get_feature_report 1 8 (device_instance w)))
                      (status_of_report relayport);
       final := set_device
                  (snd (hid_get_feature_report 1 8 (device_instance w))) w;
       calls := [CallGetFeatureReport 1 8] |}.
Proof.
  unfold state, get_feature_report, bind, call_hid, ret, lift,
    status_of_report, ok, raise, rbind.
  cbv zeta. cbn [value final calls app].
  destruct (relayport =? 0);
    destruct (hid_get_feature_report 1 8 (device_instance w))
      as [[e | report] h];
    cbn [value final calls app fst snd]; try reflexivity;
    destruct (get_switch_statuses_from_report report) as [e | bits];
    cbn [value final calls app]; try reflexivity.
  destruct (Py.getitem bits (relayport - 1));
    cbn [value final calls app]; reflexivity.
Qed.

(** A set is the write, then (unless the write raised) a query on the
    handle the write left. *)
Lemma state_set_run (relayport : Z) (turnon : bool) (w : world H) :
  state relayport (Some turnon) w
  = let (r, h) := hid_send_feature_report (message relayport turnon)
                                          (device_instance w) in
    match r with
    | inl e =>
        {| value := inl e; final := set_device h w;
           calls := [CallSendFeatureReport (message relayport turnon)] |}
    | inr _ =>
        let o := state relayport None (set_device h w) in
        {| value := value o; final := final o;
           calls := CallSendFeatureReport (message relayport turnon)
                    :: calls o |}
    end.
Proof.
  unfold state, send_feature_report, bind, call_hid, ret, ok.
  cbn [value final calls app].
  destruct (hid_send_feature_report (message relayport turnon)
                                    (device_instance w)) as [[e | n] h];
    cbn [value final calls app]; reflexivity.
Qed.

Lemma bool_of_bit (x : bool) : Py.bool_of_int (Z.b2z x) = x.
Proof. destruct x; reflexivity. Qed.

(** The decode of a well-formed report: 8 bits, bit [i] of the 8th
    byte at index [i]. *)
Lemma decode_byte (report : list Z) (b : Z) :
  nth_error report 7 = Some b -> 0 <= b <= 255 ->
  exists bits,
    get_switch_statuses_from_report report = ok bits
    /\ List.length bits = 8%nat
    /\ forall i, nth i bits 0 = Z.b2z (Z.testbit b (Z.of_nat i)).
Proof.
  intros Hnth Hb.
  destruct (decode_elements report b Hnth) as (bits & Hdec & Hlen & _ & Hbit);
    [lia |].
  exists bits. split; [exact Hdec | split; [| exact Hbit]].
  rewrite Hlen. pose proof (lsb_of_length_byte b Hb). lia.
Qed.

(** On a decoded vector of 8 elements, a port in 1..8 selects the
    element before it and port 0 the whole vector. *)
Lemma status_of_decoded (relayport : Z) (report bits : list Z) :
  get_switch_statuses_from_report report = ok bits ->
  (8 <= List.length bits)%nat ->
  0 <= relayport <= 8 ->
  status_of_report relayport report
  = ok (if relayport =? 0 then StatusAll (map Py.bool_of_int bits)
        else StatusOne
               (Py.bool_of_int (nth (Z.to_nat (relayport - 1)) bits 0))).
Proof.
  intros Hdec Hlen Hport. unfold status_of_report. rewrite Hdec.
  cbn [rbind ok]. destruct (Z.eqb_spec relayport 0) as [_ | Hne];
    [reflexivity |].
  rewrite (getitem_nth bits (relayport - 1)
             (nth (Z.to_nat (relayport - 1)) bits 0)); [reflexivity | lia |].
  apply nth_error_nth'. lia.
Qed.

(** A port whose index falls outside the decoded vector. *)
Lemma status_of_decoded_outside (relayport : Z) (report bits : list Z) :
  get_switch_statuses_from_report report = ok bits ->
  List.length bits = 8%nat ->
  relayport <= -8 \/ 9 <= relayport ->
  status_of_report relayport report = raise IndexError.
Proof.
  intros Hdec Hlen Hport. unfold status_of_report. rewrite Hdec.
  cbn [rbind ok]. destruct (Z.eqb_spec relayport 0) as [? | _]; [lia |].
  rewrite getitem_out_of_range; [reflexivity | lia].
Qed.

(** The calls and the value of [state] once the optional write went
    through and the read returned [report]. *)
Lemma state_run_after_io (w : world H) (relayport : Z)
      (turnon : option bool) (h1 h2 : H) (report : list Z) :
  match turnon with
  | Some t =>
      exists n, hid_send_feature_report (message relayport t)
                                        (device_instance w) = (ok n, h1)
  | None => h1 = device_instance w
  end ->
  hid_get_feature_report 1 8 h1 = (ok report, h2) ->
  calls (state relayport turnon w)
  = match turnon with
    | Some t => [CallSendFeatureReport (message relayport t)]
    | None => []
    end ++ [CallGetFeatureReport 1 8]
  /\ value (state relayport turnon w) = status_of_report relayport report.
Proof.
  intros Hwrite Hread. destruct turnon as [t |].
  - destruct Hwrite as (n & Hsend).
    rewrite state_set_run, Hsend. unfold ok.
    rewrite state_query_run. cbn [value final calls app set_device device_instance].
    rewrite Hread. split; reflexivity.
  - subst h1. rewrite state_query_run, Hread. split; reflexivity.
Qed.

(** C2: the command bytes of a write are those of the table, [0xFE] and
    [0xFC] for port 0 on and off, [0xFF, n] and [0xFD, n] for a port [n]
    in 1..8, and that sequence is what [state] sends as its
    feature-report write, first and only once: the run of [state] is the
    device's [send_feature_report] on these bytes and on the handle of the
    relay, then, when the device accepted them, the query on the handle
    the write left; when it raised, that exception and nothing more. *)
Theorem state_sends_command_bytes (w : world H) (n : Z) :
  1 <= n <= 8 ->
  (message 0 true = [0xFE] /\ message 0 false = [0xFC]
   /\ message n true = [0xFF; n] /\ message n false = [0xFD; n])
  /\ forall relayport turnon,
      hd_error (calls (state relayport (Some turnon) w))
      = Some (CallSendFeatureReport (message relayport turnon))
      /\ sent_messages (calls (state relayport (Some turnon) w))
         = [message relayport turnon]
      /\ state relayport (Some turnon) w
         = let (r, h) := hid_send_feature_report (message relayport turnon)
                                                 (device_instance w) in
           match r with
           | inl e =>
               {| value := inl e; final := set_device h w;
                  calls := [CallSendFeatureReport
                              (message relayport turnon)] |}
           | inr _ =>
               let o := state relayport None (set_device h w) in
               {| value := value o; final := final o;
                  calls := CallSendFeatureReport (message relayport turnon)
                           :: calls o |}
           end.
Proof.
  intros Hn. split.
  - unfold message. destruct (Z.eqb_spec n 0) as [? | _]; [lia |].
    repeat split.
  - intros relayport turnon. rewrite state_set_run.
    destruct (hid_send_feature_report (message relayport turnon)
                                      (device_instance w)) as [[e | k] h].
    + repeat split.
    + rewrite state_query_run. repeat split.
Qed.

(** C6: a call without [turnon] sends no feature-report write, for
    every port: the only call made on the device is the read. *)
Theorem query_sends_no_write (relayport : Z) (w : world H) :
  sent_messages (calls (state relayport None w)) = []
  /\ calls (state relayport None w) = [CallGetFeatureReport 1 8].
Proof. rewrite state_query_run. split; reflexivity. Qed.

(** C4: for a port in 0..8, whether or not a write was made, the report
    is read after the write and decoded, and the value is the whole
    vector of 8 booleans for port 0 and the boolean at position
    [channel - 1] of it otherwise. *)
Theorem state_returns_fresh_read (w : world H) (channel : Z)
        (turnOn : option bool) (h1 h2 : H) (report : list Z) (b : Z) :
  0 <= channel <= 8 ->
  match turnOn with
  | Some t =>
      exists n, hid_send_feature_report (message channel t)
                                        (device_instance w) = (ok n, h1)
  | None => h1 = device_instance w
  end ->
  hid_get_feature_report 1 8 h1 = (ok report, h2) ->
  nth_error report 7 = Some b ->
  0 <= b <= 255 ->
  exists bits,
    get_switch_statuses_from_report report = ok bits
    /\ List.length bits = 8%nat
    /\ calls (state channel turnOn w)
       = match turnOn with
         | Some t => [CallSendFeatureReport (message channel t)]
         | None => []
         end ++ [CallGetFeatureReport 1 8]
    /\ value (state channel turnOn w)
       = ok (if channel =? 0 then StatusAll (map Py.bool_of_int bits)
             else StatusOne
                    (Py.bool_of_int (nth (Z.to_nat (channel - 1)) bits 0))).
Proof.
  intros Hch Hwrite Hread Hnth Hb.
  destruct (decode_byte report b Hnth Hb) as (bits & Hdec & Hlen & _).
  destruct (state_run_after_io w channel turnOn h1 h2 report Hwrite Hread)
    as [Hcalls Hval].
  exists bits. repeat split; try assumption.
  rewrite Hval. apply status_of_decoded; [exact Hdec | lia | exact Hch].
Qed.

(** C5: with the device returning the same report to both reads, the
    query of a port [c] in 1..8 is the element [c - 1] of the query of
    port 0. *)
Theorem single_query_matches_vector (w w' : world H) (c : Z)
        (report : list Z) (h h' : H) (v : list bool) :
  1 <= c <= 8 ->
  hid_get_feature_report 1 8 (device_instance w) = (ok report, h) ->
  hid_get_feature_report 1 8 (device_instance w') = (ok report, h') ->
  value (state 0 None w) = ok (StatusAll v) ->
  exists s,
    value (state c None w') = ok (StatusOne s)
    /\ nth_error v (Z.to_nat (c - 1)) = Some s.
Proof.
  intros Hc Hread Hread' Hall.
  rewrite state_query_run, Hread in Hall. cbn [value fst rbind ok] in Hall.
  rewrite state_query_run, Hread'. cbn [value fst rbind ok].
  destruct (get_switch_statuses_from_report report) as [e | bits] eqn:Hdec.
  - unfold status_of_report in Hall. rewrite Hdec in Hall. discriminate Hall.
  - pose proof (decode_ok_length report bits Hdec) as Hlen.
    rewrite (status_of_decoded 0 report bits Hdec Hlen) in Hall by lia.
    rewrite (status_of_decoded c report bits Hdec Hlen) by lia.
    destruct (Z.eqb_spec c 0) as [? | _]; [lia |].
    cbn [Z.eqb] in Hall. unfold ok in Hall. injection Hall as <-.
    eexists. split; [reflexivity |].
    rewrite nth_error_map.
    rewrite (nth_error_nth' bits 0) by lia. reflexivity.
Qed.

(** C3, as the code has it: no check precedes the device calls.  For a
    port at or above 9, or at or below -8, [state] first makes the write
    (when [turnon] is given) and the read, and then raises IndexError
    from the list index. *)
Theorem out_of_range_port_fails_after_io (w : world H) (channel : Z)
        (turnon : option bool) (h1 h2 : H) (report : list Z) (b : Z) :
  channel <= -8 \/ 9 <= channel ->
  match turnon with
  | Some t =>
      exists n, hid_send_feature_report (message channel t)
                                        (device_instance w) = (ok n, h1)
  | None => h1 = device_instance w
  end ->
  hid_get_feature_report 1 8 h1 = (ok report, h2) ->
  nth_error report 7 = Some b ->
  0 <= b <= 255 ->
  value (state channel turnon w) = raise IndexError
  /\ calls (state channel turnon w)
     = match turnon with
       | Some t => [CallSendFeatureReport (message channel t)]
       | None => []
       end ++ [CallGetFeatureReport 1 8].
Proof.
  intros Hch Hwrite Hread Hnth Hb.
  destruct (decode_byte report b Hnth Hb) as (bits & Hdec & Hlen & _).
  destruct (state_run_after_io w channel turnon h1 h2 report Hwrite Hread)
    as [Hcalls Hval].
  split; [| exact Hcalls].
  rewrite Hval. apply (status_of_decoded_outside channel report bits); assumption.
Qed.

(** C10, as the code has it: on a query, a port [c] in -7..-1 indexes
    the decoded vector from its end and returns the state of port
    [c + 8] (bit [c + 7] of the status byte); port -8 raises
    IndexError. *)
Theorem negative_port_reads_from_the_end (w : world H) (c : Z)
        (report : list Z) (b : Z) (h' : H) :
  -7 <= c <= -1 ->
  hid_get_feature_report 1 8 (device_instance w) = (ok report, h') ->
  nth_error report 7 = Some b ->
  0 <= b <= 255 ->
  value (state c None w) = ok (StatusOne (Z.testbit b (c + 7)))
  /\ value (state c None w) = value (state (c + 8) None w)
  /\ value (state (-8) None w) = raise IndexError.
Proof.
  intros Hc Hread Hnth Hb.
  destruct (decode_byte report b Hnth Hb) as (bits & Hdec & Hlen & Hbit).
  rewrite !state_query_run, Hread. cbn [value fst rbind ok].
  assert (Hneg : status_of_report c report
                 = ok (StatusOne (Z.testbit b (c + 7)))).
  { unfold status_of_report. rewrite Hdec. cbn [rbind ok].
    destruct (Z.eqb_spec c 0) as [? | _]; [lia |].
    rewrite (getitem_negative bits (c - 1)
               (nth (Z.to_nat (c + 7)) bits 0)).
    - cbn [rbind ok].
      rewrite Hbit, bool_of_bit, Z2Nat.id by lia. reflexivity.
    - lia.
    - rewrite Hlen. lia.
    - rewrite Hlen. replace (c - 1 + Z.of_nat 8) with (c + 7) by lia.
      apply nth_error_nth'. lia. }
  split; [exact Hneg | split].
  - rewrite Hneg.
    rewrite (status_of_decoded (c + 8) report bits Hdec) by lia.
    destruct (Z.eqb_spec (c + 8) 0) as [? | _]; [lia |].
    replace (c + 8 - 1) with (c + 7) by lia.
    rewrite Hbit, bool_of_bit, Z2Nat.id by lia. reflexivity.
  - apply (status_of_decoded_outside (-8) report bits); [assumption .. | lia].
Qed.

End StateProperties.

(** ** The simulated board under [state] *)

Lemma state_sends_command_bytes_witness :
  (message 0 true = [0xFE] /\ message 0 false = [0xFC]
   /\ message 3 true = [0xFF; 3] /\ message 3 false = [0xFD; 3])
  /\ forall relayport turnon,
      hd_error (calls (state relayport (Some turnon) (SimBoard.opened 0)))
      = Some (CallSendFeatureReport (message relayport turnon))
      /\ sent_messages (calls (state relayport (Some turnon) (SimBoard.opened 0)))
         = [message relayport turnon]
      /\ state relayport (Some turnon) (SimBoard.opened 0)
         = let (r, h) := hid_send_feature_report
                           (message relayport turnon)
                           (device_instance (SimBoard.opened 0)) in
           match r with
           | inl e =>
               {| value := inl e; final := set_device h (SimBoard.opened 0);
                  calls := [CallSendFeatureReport
                              (message relayport turnon)] |}
           | inr _ =>
               let o := state relayport None
                              (set_device h (SimBoard.opened 0)) in
               {| value := value o; final := final o;
                  calls := CallSendFeatureReport (message relayport turnon)
                           :: calls o |}
           end.
Proof. apply (state_sends_command_bytes (SimBoard.opened 0) 3). lia. Defined.

Lemma state_returns_fresh_read_witness :
  exists bits,
    get_switch_statuses_from_report [76; 72; 67; 88; 73; 0; 0; 6] = ok bits
    /\ List.length bits = 8%nat
    /\ calls (state 3 (Some true) (SimBoard.opened 2))
       = [CallSendFeatureReport (message 3 true)] ++ [CallGetFeatureReport 1 8]
    /\ value (state 3 (Some true) (SimBoard.opened 2))
       = ok (StatusOne (Py.bool_of_int (nth 2 bits 0))).
Proof.
  apply (state_returns_fresh_read
           (SimBoard.opened 2) 3 (Some true)
           {| SimBoard.is_open := true; SimBoard.relays := 6 |}
           {| SimBoard.is_open := true; SimBoard.relays := 6 |}
           [76; 72; 67; 88; 73; 0; 0; 6] 6).
  - lia.
  - exists 2. reflexivity.
  - reflexivity.
  - reflexivity.
  - lia.
Defined.

Lemma single_query_matches_vector_witness :
  exists s,
    value (state 2 None (SimBoard.opened 2)) = ok (StatusOne s)
    /\ nth_error [false; true; false; false; false; false; false; false] 1
       = Some s.
Proof.
  apply (single_query_matches_vector
           (SimBoard.opened 2) (SimBoard.opened 2) 2
           [76; 72; 67; 88; 73; 0; 0; 2]
           {| SimBoard.is_open := true; SimBoard.relays := 2 |}
           {| SimBoard.is_open := true; SimBoard.relays := 2 |}).
  - lia.
  - reflexivity.
  - reflexivity.
  - reflexivity.
Defined.

(** C3 as stated fails: port 9 with [turnon] sends the write and makes
    the read before it raises, and what it raises is IndexError; port -1
    raises nothing. *)
Lemma out_of_range_port_reaches_device :
  calls (state 9 (Some true) (SimBoard.opened 0))
  = [CallSendFeatureReport [0xFF; 9]; CallGetFeatureReport 1 8]
  /\ value (state 9 (Some true) (SimBoard.opened 0)) = raise IndexError
  /\ calls (state 9 None (SimBoard.opened 0)) = [CallGetFeatureReport 1 8]
  /\ calls (state (-1) None (SimBoard.opened 0)) = [CallGetFeatureReport 1 8]
  /\ value (state (-1) None (SimBoard.opened 0)) = ok (StatusOne false).
Proof. repeat split. Qed.

Lemma out_of_range_port_fails_after_io_witness :
  value (state 9 (Some false) (SimBoard.opened 5)) = raise IndexError
  /\ calls (state 9 (Some false) (SimBoard.opened 5))
     = [CallSendFeatureReport (message 9 false)] ++ [CallGetFeatureReport 1 8].
Proof.
  apply (out_of_range_port_fails_after_io
           (SimBoard.opened 5) 9 (Some false)
           {| SimBoard.is_open := true; SimBoard.relays := 5 |}
           {| SimBoard.is_open := true; SimBoard.relays := 5 |}
           [76; 72; 67; 88; 73; 0; 0; 5] 5).
  - lia.
  - exists 2. reflexivity.
  - reflexivity.
  - reflexivity.
  - lia.
Defined.

(** C10 as stated fails: with only relay 7 on (status byte 64), port -1
    reads on, the state of port 7, while port 8 is off; and port -8
    raises IndexError. *)
Lemma negative_port_is_not_port_plus_nine :
  value (state (-1) None (SimBoard.opened 64)) = ok (StatusOne true)
  /\ value (state 8 None (SimBoard.opened 64)) = ok (StatusOne false)
  /\ value (state 7 None (SimBoard.opened 64)) = ok (StatusOne true)
  /\ value (state (-8) None (SimBoard.opened 64)) = raise IndexError.
Proof. repeat split. Qed.

Lemma negative_port_reads_from_the_end_witness :
  value (state (-1) None (SimBoard.opened 64))
  = ok (StatusOne (Z.testbit 64 (-1 + 7)))
  /\ value (state (-1) None (SimBoard.opened 64))
     = value (state (-1 + 8) None (SimBoard.opened 64))
  /\ value (state (-8) None (SimBoard.opened 64)) = raise IndexError.
Proof.
  apply (negative_port_reads_from_the_end
           (SimBoard.opened 64) (-1) [76; 72; 67; 88; 73; 0; 0; 64] 64
           {| SimBoard.is_open := true; SimBoard.relays := 64 |}).
  - lia.
  - reflexivity.
  - reflexivity.
  - lia.
Defined.

(** ** Closing the device *)

Section Cleanup.

Context {H : Type} `{HidDevice H}.

(** [cleanup] is one [close] on the handle: it returns or raises what
    [close] does, and has no guard of its own. *)
Lemma cleanup_run (w : world H) :
  cleanup w
  = {| value := fst (hid_close (device_instance w));
       final := set_device (snd (hid_close (device_instance w))) w;
       calls := [CallClose] |}.
Proof.
  unfold cleanup, call_hid.
  destruct (hid_close (device_instance w)); reflexivity.
Qed.

End Cleanup.

(** ** The command line *)

Section CommandLine.

Context {H : Type} `{HidDevice H}.


End CommandLine.

(** C7: the identifiers given on the command line are not what the device
    is opened with.  On [--port 1 --idVvendor 5824 --idProduct 1503] the
    block raises AttributeError at [args.idVendor] and never calls [open];
    and what the two expressions yield for a flag that was given is the
    boolean True, not the number. *)
Theorem id_flags_do_not_reach_open :
  value (main flags_with_ids SimBoard.fresh) = raise AttributeError
  /\ calls (main flags_with_ids SimBoard.fresh) = []
  /\ override_or_default (flag_idVvendor flags_with_ids) 0x16c0 = VBool true
  /\ override_or_default (flag_idProduct flags_with_ids) 0x05df = VBool true
  /\ override_or_default None 0x16c0 = VInt 0x16c0.
Proof. repeat split. Qed.

(** ** More on the decode *)

Lemma byte_of_bits_padded (l : list Z) (k : nat) :
  byte_of_bits (l ++ repeat 0 k) = byte_of_bits l.
Proof.
  induction l as [| x l IH]; cbn [app byte_of_bits].
  - induction k as [| k IHk]; cbn [repeat byte_of_bits]; lia.
  - rewrite IH. reflexivity.
Qed.

Lemma byte_of_lsb_digits (p : positive) :
  byte_of_bits (map bit_of_char (lsb_digits p)) = Zpos p.
Proof.
  induction p as [q IH | q IH | ]; cbn [lsb_digits map byte_of_bits].
  - rewrite IH. change (bit_of_char "1") with 1. lia.
  - rewrite IH. change (bit_of_char "0") with 0. lia.
  - reflexivity.
Qed.

Lemma decode_without_eighth (report : list Z) :
  (List.length report < 8)%nat ->
  get_switch_statuses_from_report report = raise IndexError.
Proof.
  intros Hlen. unfold get_switch_statuses_from_report.
  rewrite getitem_out_of_range by lia. reflexivity.
Qed.

(** X1: a report with fewer than 8 elements has no 8th number: the decode
    raises IndexError, the empty report included. *)
Theorem decode_short_report_raises (report : list Z) :
  (List.length report < 8)%nat ->
  get_switch_statuses_from_report report = raise IndexError
  /\ get_switch_statuses_from_report [] = raise IndexError.
Proof.
  intros Hlen. split; [apply decode_without_eighth; exact Hlen | reflexivity].
Qed.

Lemma decode_short_report_raises_witness :
  get_switch_statuses_from_report [76; 72; 67; 88; 73; 0; 0] = raise IndexError
  /\ get_switch_statuses_from_report [] = raise IndexError.
Proof.
  apply (decode_short_report_raises [76; 72; 67; 88; 73; 0; 0]). simpl. lia.
Defined.

(** X2: a negative 8th number is rendered with a sign, which is no binary
    digit: the decode raises ValueError. *)
Theorem decode_negative_status_raises (report : list Z) (b : Z) :
  nth_error report 7 = Some b ->
  b < 0 ->
  get_switch_statuses_from_report report = raise ValueError.
Proof.
  intros Hnth Hb. apply (decode_negative_raises report b); [| exact Hb].
  apply getitem_nth; [lia | exact Hnth].
Qed.

Lemma decode_negative_status_raises_witness :
  get_switch_statuses_from_report [76; 72; 67; 88; 73; 0; 0; -3]
  = raise ValueError.
Proof.
  apply (decode_negative_status_raises [76; 72; 67; 88; 73; 0; 0; -3] (-3));
    [reflexivity | lia].
Defined.

(** X3: the decode reads the 8th number and nothing else: two reports
    that agree there decode alike, whatever their other elements and
    their lengths. *)
Theorem decode_reads_only_eighth (report report' : list Z) (b : Z) :
  nth_error report 7 = Some b ->
  nth_error report' 7 = Some b ->
  get_switch_statuses_from_report report
  = get_switch_statuses_from_report report'.
Proof.
  intros Hnth Hnth'. unfold get_switch_statuses_from_report.
  rewrite (getitem_nth report 7 b), (getitem_nth report' 7 b);
    [reflexivity | lia | exact Hnth' | lia | exact Hnth].
Qed.

Lemma decode_reads_only_eighth_witness :
  get_switch_statuses_from_report [76; 72; 67; 88; 73; 0; 0; 9]
  = get_switch_statuses_from_report [1; 2; 3; 4; 5; 6; 7; 9; 10; 11].
Proof.
  apply (decode_reads_only_eighth _ _ 9); reflexivity.
Defined.

(** X4: the decode loses nothing: for a non-negative 8th number [b], of
    any size, the returned digits weighted by the powers of two, least
    significant first, add up to [b] again. *)
Theorem decode_round_trip (report : list Z) (b : Z) :
  nth_error report 7 = Some b ->
  0 <= b ->
  exists bits,
    get_switch_statuses_from_report report = ok bits
    /\ byte_of_bits bits = b.
Proof.
  intros Hnth Hb. eexists. split.
  - apply decode_nonneg; [| exact Hb].
    apply getitem_nth; [lia | exact Hnth].
  - rewrite byte_of_bits_padded.
    destruct b as [| p | p]; [reflexivity | apply byte_of_lsb_digits | lia].
Qed.

Lemma decode_round_trip_witness :
  exists bits,
    get_switch_statuses_from_report [76; 72; 67; 88; 73; 0; 0; 300] = ok bits
    /\ byte_of_bits bits = 300.
Proof.
  apply (decode_round_trip [76; 72; 67; 88; 73; 0; 0; 300] 300);
    [reflexivity | lia].
Defined.

(** The decode of a well-formed report, written out. *)
Lemma decode_byte_explicit (report : list Z) (b : Z) :
  nth_error report 7 = Some b -> 0 <= b <= 255 ->
  get_switch_statuses_from_report report
  = ok (map (fun i => Z.b2z (Z.testbit b i)) [0; 1; 2; 3; 4; 5; 6; 7]).
Proof.
  intros Hnth Hb.
  destruct (decode_byte report b Hnth Hb) as (bits & Hdec & Hlen & Hbit).
  rewrite Hdec. f_equal.
  destruct bits as [| b0 [| b1 [| b2 [| b3 [| b4 [| b5 [| b6 [| b7 [| ? ?]]]]]]]]];
    try discriminate Hlen.
  cbn [map]. remember (Z.testbit b) as tb eqn:Htb. clear Htb Hdec.
  pose proof (Hbit 0%nat) as H0. pose proof (Hbit 1%nat) as H1.
  pose proof (Hbit 2%nat) as H2. pose proof (Hbit 3%nat) as H3.
  pose proof (Hbit 4%nat) as H4. pose proof (Hbit 5%nat) as H5.
  pose proof (Hbit 6%nat) as H6. pose proof (Hbit 7%nat) as H7.
  simpl in H0, H1, H2, H3, H4, H5, H6, H7. subst. reflexivity.
Qed.

(** ** More on the command bytes *)

(** X5: no two commands share their bytes: the message determines the
    port and whether it is switched on or off, for every integer port. *)
Theorem message_injective (p p' : Z) (t t' : bool) :
  message p t = message p' t' -> p = p' /\ t = t'.
Proof.
  unfold message.
  destruct (Z.eqb_spec p 0) as [-> | Hp], (Z.eqb_spec p' 0) as [-> | Hp'],
    t, t'; intros Heq; try discriminate Heq;
    try (injection Heq as <-); split; reflexivity.
Qed.

Lemma message_injective_witness : 3 = 3 /\ false = false.
Proof. apply (message_injective 3 3 false false). reflexivity. Defined.

(** ** More on the getter/setter *)

Section StateRuns.

Context {H : Type} `{HidDevice H}.

(** Every run of [state] that gets past the write is decided by what the
    read returns on the handle the write left. *)
Lemma state_run_after_write (w : world H) (relayport : Z)
      (turnon : option bool) (h1 : H) :
  match turnon with
  | Some t =>
      exists n, hid_send_feature_report (message relayport t)
                                        (device_instance w) = (ok n, h1)
  | None => h1 = device_instance w
  end ->
  value (state relayport turnon w)
  = rbind (fst (hid_get_feature_report 1 8 h1)) (status_of_report relayport)
  /\ calls (state relayport turnon w)
     = match turnon with
       | Some t => [CallSendFeatureReport (message relayport t)]
       | None => []
       end ++ [CallGetFeatureReport 1 8]
  /\ final (state relayport turnon w)
     = set_device (snd (hid_get_feature_report 1 8 h1)) w.
Proof.
  intros Hwrite. destruct turnon as [t |].
  - destruct Hwrite as (n & Hsend).
    rewrite state_set_run, Hsend. unfold ok.
    rewrite state_query_run.
    cbn [value final calls app set_device device_instance atexit_handlers stdout].
    repeat split.
  - subst h1. rewrite state_query_run. repeat split.
Qed.

Lemma state_value_cases (relayport : Z) (turnon : option bool) (w : world H) :
  (exists e, value (state relayport turnon w) = inl e)
  \/ exists report,
      value (state relayport turnon w) = status_of_report relayport report.
Proof.
  destruct turnon as [t |].
  - rewrite state_set_run.
    destruct (hid_send_feature_report (message relayport t) (device_instance w))
      as [[e | n] h]; [left; exists e; reflexivity |].
    rewrite state_query_run. cbn [value].
    destruct (fst (hid_get_feature_report 1 8 (device_instance (set_device h w))))
      as [e | report]; [left; exists e | right; exists report]; reflexivity.
  - rewrite state_query_run. cbn [value].
    destruct (fst (hid_get_feature_report 1 8 (device_instance w)))
      as [e | report]; [left; exists e | right; exists report]; reflexivity.
Qed.

(** X6: when the device refuses the write, [state] raises what the device
    raised and stops there: no report is read. *)
Theorem state_failed_write_stops (w : world H) (relayport : Z) (t : bool)
        (e : exn) (h1 : H) :
  hid_send_feature_report (message relayport t) (device_instance w)
  = (inl e, h1) ->
  value (state relayport (Some t) w) = inl e
  /\ calls (state relayport (Some t) w)
     = [CallSendFeatureReport (message relayport t)].
Proof.
  intros Hsend. rewrite state_set_run, Hsend. split; reflexivity.
Qed.

(** X7: when the read fails, [state] raises what the device raised, after
    the write if one was asked for: nothing is caught or retried. *)
Theorem state_failed_read_propagates (w : world H) (relayport : Z)
        (turnon : option bool) (e : exn) (h1 h2 : H) :
  match turnon with
  | Some t =>
      exists n, hid_send_feature_report (message relayport t)
                                        (device_instance w) = (ok n, h1)
  | None => h1 = device_instance w
  end ->
  hid_get_feature_report 1 8 h1 = (inl e, h2) ->
  value (state relayport turnon w) = inl e
  /\ calls (state relayport turnon w)
     = match turnon with
       | Some t => [CallSendFeatureReport (message relayport t)]
       | None => []
       end ++ [CallGetFeatureReport 1 8].
Proof.
  intros Hwrite Hread.
  destruct (state_run_after_write w relayport turnon h1 Hwrite)
    as (Hval & Hcalls & _).
  rewrite Hval, Hread. split; [reflexivity | exact Hcalls].
Qed.

(** X8: a report shorter than 8 numbers makes [state] raise IndexError,
    for every port, and after the write if one was asked for. *)
Theorem state_short_report_raises (w : world H) (relayport : Z)
        (turnon : option bool) (h1 h2 : H) (report : list Z) :
  match turnon with
  | Some t =>
      exists n, hid_send_feature_report (message relayport t)
                                        (device_instance w) = (ok n, h1)
  | None => h1 = device_instance w
  end ->
  hid_get_feature_report 1 8 h1 = (ok report, h2) ->
  (List.length report < 8)%nat ->
  value (state relayport turnon w) = raise IndexError.
Proof.
  intros Hwrite Hread Hlen.
  destruct (state_run_after_write w relayport turnon h1 Hwrite) as (Hval & _).
  rewrite Hval, Hread. cbn [fst rbind ok]. unfold status_of_report.
  rewrite decode_without_eighth by exact Hlen. reflexivity.
Qed.

(** X9: a set is the write followed by a query: once the write is
    accepted, [state] with [turnon] returns what [state] without it
    returns on the handle the write left, and leaves the same process. *)
Theorem state_set_is_write_then_query (w : world H) (relayport : Z)
        (t : bool) (n : Z) (h1 : H) :
  hid_send_feature_report (message relayport t) (device_instance w)
  = (ok n, h1) ->
  value (state relayport (Some t) w)
  = value (state relayport None (set_device h1 w))
  /\ final (state relayport (Some t) w)
     = final (state relayport None (set_device h1 w))
  /\ calls (state relayport (Some t) w)
     = CallSendFeatureReport (message relayport t)
       :: calls (state relayport None (set_device h1 w)).
Proof.
  intros Hsend. rewrite state_set_run, Hsend. repeat split.
Qed.

(** X10: [state] prints nothing and registers nothing: whatever happens,
    the exit handlers and the output of the process are as before. *)
Theorem state_keeps_process (relayport : Z) (turnon : option bool)
        (w : world H) :
  atexit_handlers (final (state relayport turnon w)) = atexit_handlers w
  /\ stdout (final (state relayport turnon w)) = stdout w.
Proof.
  destruct turnon as [t |].
  - rewrite state_set_run.
    destruct (hid_send_feature_report (message relayport t) (device_instance w))
      as [[e | n] h]; [split; reflexivity |].
    rewrite state_query_run. split; reflexivity.
  - rewrite state_query_run. split; reflexivity.
Qed.

(** X11: the shape of the result follows the port: a list, of at least 8
    booleans, is returned for port 0 and only for it; every other port
    that returns, returns one boolean. *)
Theorem state_result_shape (relayport : Z) (turnon : option bool)
        (w : world H) (s : status) :
  value (state relayport turnon w) = ok s ->
  match s with
  | StatusAll l => relayport = 0 /\ (8 <= List.length l)%nat
  | StatusOne _ => relayport <> 0
  end.
Proof.
  intros Hval.
  destruct (state_value_cases relayport turnon w) as [[e He] | [report Hrep]].
  - rewrite He in Hval. discriminate Hval.
  - rewrite Hrep in Hval. unfold status_of_report in Hval.
    destruct (get_switch_statuses_from_report report) as [e | bits] eqn:Hdec;
      [discriminate Hval |].
    cbn [rbind] in Hval. destruct (Z.eqb_spec relayport 0) as [Hz | Hnz].
    + unfold ok in Hval. injection Hval as <-. split; [exact Hz |].
      rewrite length_map. apply (decode_ok_length report). exact Hdec.
    + destruct (Py.getitem bits (relayport - 1)) as [e | x];
        [discriminate Hval |].
      cbn [rbind] in Hval. unfold ok in Hval. injection Hval as <-.
      exact Hnz.
Qed.

(** X12: what [state] returns is read off the status byte: with the write
    (if any) accepted and a well-formed report read back, port [k] in
    1..8 is bit [k - 1] of the 8th byte, and port 0 is the bits 0 to 7 in
    that order. *)
Theorem state_reads_status_bits (w : world H) (channel : Z)
        (turnon : option bool) (h1 h2 : H) (report : list Z) (b : Z) :
  0 <= channel <= 8 ->
  match turnon with
  | Some t =>
      exists n, hid_send_feature_report (message channel t)
                                        (device_instance w) = (ok n, h1)
  | None => h1 = device_instance w
  end ->
  hid_get_feature_report 1 8 h1 = (ok report, h2) ->
  nth_error report 7 = Some b ->
  0 <= b <= 255 ->
  value (state channel turnon w)
  = ok (if channel =? 0
        then StatusAll (map (Z.testbit b) [0; 1; 2; 3; 4; 5; 6; 7])
        else StatusOne (Z.testbit b (channel - 1))).
Proof.
  intros Hch Hwrite Hread Hnth Hb.
  destruct (state_run_after_write w channel turnon h1 Hwrite) as (Hval & _).
  rewrite Hval, Hread. cbn [fst rbind ok].
  pose proof (decode_byte_explicit report b Hnth Hb) as Hdec.
  rewrite (status_of_decoded channel report _ Hdec) by (simpl; lia).
  f_equal. destruct (Z.eqb_spec channel 0) as [_ | Hnz].
  - cbn [map]. rewrite !bool_of_bit. reflexivity.
  - assert (Hk : channel = 1 \/ channel = 2 \/ channel = 3 \/ channel = 4
                 \/ channel = 5 \/ channel = 6 \/ channel = 7 \/ channel = 8)
      by lia.
    destruct Hk as [-> | [-> | [-> | [-> | [-> | [-> | [-> | ->]]]]]]];
      match goal with
      | |- context [Z.to_nat ?e] =>
          let v := eval vm_compute in (Z.to_nat e) in
          change (Z.to_nat e) with v
      end;
      cbn [nth map]; rewrite bool_of_bit; reflexivity.
Qed.

End StateRuns.

Lemma state_failed_write_stops_witness :
  value (state 3 (Some true) SimBoard.fresh) = inl ValueError
  /\ calls (state 3 (Some true) SimBoard.fresh)
     = [CallSendFeatureReport (message 3 true)].
Proof.
  apply (state_failed_write_stops SimBoard.fresh 3 true ValueError
           (device_instance SimBoard.fresh)).
  reflexivity.
Defined.

Lemma state_failed_read_propagates_witness :
  value (state 3 None SimBoard.fresh) = inl ValueError
  /\ calls (state 3 None SimBoard.fresh) = [] ++ [CallGetFeatureReport 1 8].
Proof.
  apply (state_failed_read_propagates SimBoard.fresh 3 None ValueError
           (device_instance SimBoard.fresh) (device_instance SimBoard.fresh)).
  - reflexivity.
  - reflexivity.
Defined.

Lemma state_short_report_raises_witness :
  value (state 0 (Some true) (Replay.loaded [[76; 72; 67]])) = raise IndexError.
Proof.
  apply (state_short_report_raises (Replay.loaded [[76; 72; 67]]) 0 (Some true)
           [[76; 72; 67]] [] [76; 72; 67]).
  - exists 1. reflexivity.
  - reflexivity.
  - simpl. lia.
Defined.

Lemma state_set_is_write_then_query_witness :
  value (state 3 (Some true) (SimBoard.opened 0))
  = value (state 3 None
             (set_device {| SimBoard.is_open := true; SimBoard.relays := 4 |}
                         (SimBoard.opened 0)))
  /\ final (state 3 (Some true) (SimBoard.opened 0))
     = final (state 3 None
                (set_device {| SimBoard.is_open := true; SimBoard.relays := 4 |}
                            (SimBoard.opened 0)))
  /\ calls (state 3 (Some true) (SimBoard.opened 0))
     = CallSendFeatureReport (message 3 true)
       :: calls (state 3 None
                   (set_device {| SimBoard.is_open := true; SimBoard.relays := 4 |}
                               (SimBoard.opened 0))).
Proof.
  apply (state_set_is_write_then_query (SimBoard.opened 0) 3 true 2).
  reflexivity.
Defined.

Lemma state_result_shape_witness :
  0 = 0
  /\ (8 <= List.length
             [false; true; false; false; false; false; false; false])%nat.
Proof.
  apply (state_result_shape 0 None (SimBoard.opened 2)
           (StatusAll [false; true; false; false; false; false; false; false])).
  reflexivity.
Defined.

Lemma state_reads_status_bits_witness :
  value (state 3 (Some false) (Replay.loaded [[0; 0; 0; 0; 0; 0; 0; 165]]))
  = ok (StatusOne (Z.testbit 165 (3 - 1))).
Proof.
  apply (state_reads_status_bits
           (Replay.loaded [[0; 0; 0; 0; 0; 0; 0; 165]]) 3 (Some false)
           [[0; 0; 0; 0; 0; 0; 0; 165]] [] [0; 0; 0; 0; 0; 0; 0; 165] 165).
  - lia.
  - exists 2. reflexivity.
  - reflexivity.
  - reflexivity.
  - lia.
Defined.

(** ** Opening the device, and the whole script *)

Section Session.

Context {H : Type} `{HidDevice H}.

(** The run of [Relay.__init__], case by case. *)
Lemma Relay_init_run (idvendor idproduct : py_value) (w : world H) :
  Relay_init idvendor idproduct w
  = let opened := hid_open idvendor idproduct hid_device in
    match fst opened with
    | inl e =>
        {| value := inl e; final := set_device (snd opened) w;
           calls := [CallOpen idvendor idproduct] |}
    | inr _ =>
        let configured := hid_set_nonblocking 1 (snd opened) in
        match fst configured with
        | inl e =>
            {| value := inl e; final := set_device (snd configured) w;
               calls := [CallOpen idvendor idproduct; CallSetNonblocking 1] |}
        | inr _ =>
            {| value := ok tt;
               final := {| device_instance := snd configured;
                           atexit_handlers := RelayCleanup :: atexit_handlers w;
                           stdout := stdout w |};
               calls := [CallOpen idvendor idproduct; CallSetNonblocking 1] |}
        end
    end.
Proof.
  unfold Relay_init, bind, call_hid, ret, atexit_register, ok.
  cbv zeta.
  cbn [value final calls app set_device device_instance atexit_handlers stdout].
  destruct (hid_open idvendor idproduct hid_device) as [[e | u] h1];
    cbn [value final calls app fst snd set_device device_instance
         atexit_handlers stdout]; [reflexivity |].
  destruct (hid_set_nonblocking 1 h1) as [[e | n] h2];
    cbn [value final calls app fst snd set_device device_instance
         atexit_handlers stdout]; reflexivity.
Qed.

(** X13: when [open] or [set_nonblocking] raises, [Relay.__init__] raises
    the same exception and registers no exit handler; after a failed
    [open], [set_nonblocking] is not called. *)
Theorem Relay_init_failure_registers_nothing
        (idvendor idproduct : py_value) (w : world H) (e : exn) :
  fst (hid_open idvendor idproduct hid_device) = inl e
  \/ ((exists u, fst (hid_open idvendor idproduct hid_device) = inr u)
      /\ fst (hid_set_nonblocking 1
                (snd (hid_open idvendor idproduct hid_device))) = inl e) ->
  value (Relay_init idvendor idproduct w) = inl e
  /\ atexit_handlers (final (Relay_init idvendor idproduct w))
     = atexit_handlers w
  /\ (fst (hid_open idvendor idproduct hid_device) = inl e ->
      calls (Relay_init idvendor idproduct w)
      = [CallOpen idvendor idproduct]).
Proof.
  intros Hfail. rewrite Relay_init_run. cbv zeta.
  destruct Hfail as [Hopen | [[u Hopen] Hconf]]; rewrite Hopen.
  - repeat split.
  - rewrite Hconf. repeat split. intros Habs. discriminate Habs.
Qed.

(** X14: when [open] and [set_nonblocking] succeed, [Relay.__init__]
    makes these two calls on a new handle, in this order, keeps the handle
    they leave, and puts [cleanup] in front of the exit handlers; nothing
    is printed. *)
Theorem Relay_init_opens_and_registers
        (idvendor idproduct : py_value) (w : world H) (n : Z) (h1 h2 : H) :
  hid_open idvendor idproduct hid_device = (ok tt, h1) ->
  hid_set_nonblocking 1 h1 = (ok n, h2) ->
  value (Relay_init idvendor idproduct w) = ok tt
  /\ calls (Relay_init idvendor idproduct w)
     = [CallOpen idvendor idproduct; CallSetNonblocking 1]
  /\ device_instance (final (Relay_init idvendor idproduct w)) = h2
  /\ atexit_handlers (final (Relay_init idvendor idproduct w))
     = RelayCleanup :: atexit_handlers w
  /\ stdout (final (Relay_init idvendor idproduct w)) = stdout w.
Proof.
  intros Hopen Hconf. rewrite Relay_init_run. cbv zeta.
  rewrite Hopen. cbn [fst snd ok]. rewrite Hconf. repeat split.
Qed.

(** The exit handlers: one [close] per registered handler, and the rest
    of the process untouched. *)
Lemma run_exit_handlers_run (hs : list exit_handler) : forall w : world H,
  value (run_exit_handlers hs w) = ok tt
  /\ calls (run_exit_handlers hs w) = repeat CallClose (List.length hs)
  /\ atexit_handlers (final (run_exit_handlers hs w)) = atexit_handlers w
  /\ stdout (final (run_exit_handlers hs w)) = stdout w.
Proof.
  induction hs as [| [] hs IH]; intros w.
  - repeat split.
  - cbn [run_exit_handlers]. cbv zeta. rewrite cleanup_run.
    cbn [value final calls app List.length repeat].
    destruct (IH (set_device (snd (hid_close (device_instance w))) w))
      as (Hval & Hcalls & Hexit & Hout).
    rewrite Hval, Hcalls, Hexit, Hout. repeat split.
Qed.


(** X16: [cleanup] does not take itself off the exit handlers: a relay
    that was opened and then cleaned up by hand is closed a second time
    when the interpreter shuts down. *)
Theorem cleanup_then_exit_closes_twice
        (idvendor idproduct : py_value) (w : world H) (n : Z) (h1 h2 : H) :
  hid_open idvendor idproduct hid_device = (ok tt, h1) ->
  hid_set_nonblocking 1 h1 = (ok n, h2) ->
  atexit_handlers w = [] ->
  let o := bind (Relay_init idvendor idproduct) (fun _ => cleanup) w in
  calls o
  = [CallOpen idvendor idproduct; CallSetNonblocking 1; CallClose]
  /\ calls (run_exit_handlers (atexit_handlers (final o)) (final o))
     = [CallClose].
Proof.
  intros Hopen Hconf Hnone. cbv zeta. unfold bind.
  rewrite Relay_init_run. cbv zeta.
  rewrite Hopen. cbn [fst snd ok]. rewrite Hconf.
  cbn [fst snd value final calls]. rewrite cleanup_run.
  cbn [value final calls app set_device atexit_handlers device_instance].
  split; [reflexivity |].
  rewrite Hnone.
  match goal with
  | |- calls (run_exit_handlers ?hs ?w') = _ =>
      destruct (run_exit_handlers_run hs w') as (_ & Hclose & _)
  end.
  rewrite Hclose. reflexivity.
Qed.

End Session.

Lemma Relay_init_failure_registers_nothing_witness :
  value (Relay_init (VBool true) (VInt 0x05df) SimBoard.fresh) = inl IOError
  /\ atexit_handlers (final (Relay_init (VBool true) (VInt 0x05df) SimBoard.fresh))
     = atexit_handlers SimBoard.fresh
  /\ (fst (hid_open (VBool true) (VInt 0x05df) (hid_device : SimBoard.board))
      = inl IOError ->
      calls (Relay_init (VBool true) (VInt 0x05df) SimBoard.fresh)
      = [CallOpen (VBool true) (VInt 0x05df)]).
Proof.
  apply (Relay_init_failure_registers_nothing
           (VBool true) (VInt 0x05df) SimBoard.fresh IOError).
  left. reflexivity.
Defined.

Lemma Relay_init_opens_and_registers_witness :
  value (Relay_init (VInt 0x16c0) (VInt 0x05df) SimBoard.fresh) = ok tt
  /\ calls (Relay_init (VInt 0x16c0) (VInt 0x05df) SimBoard.fresh)
     = [CallOpen (VInt 0x16c0) (VInt 0x05df); CallSetNonblocking 1]
  /\ device_instance (final (Relay_init (VInt 0x16c0) (VInt 0x05df) SimBoard.fresh))
     = {| SimBoard.is_open := true; SimBoard.relays := 0 |}
  /\ atexit_handlers (final (Relay_init (VInt 0x16c0) (VInt 0x05df) SimBoard.fresh))
     = RelayCleanup :: atexit_handlers SimBoard.fresh
  /\ stdout (final (Relay_init (VInt 0x16c0) (VInt 0x05df) SimBoard.fresh))
     = stdout SimBoard.fresh.
Proof.
  apply (Relay_init_opens_and_registers
           (VInt 0x16c0) (VInt 0x05df) SimBoard.fresh 0
           {| SimBoard.is_open := true; SimBoard.relays := 0 |}).
  - reflexivity.
  - reflexivity.
Defined.

Lemma cleanup_then_exit_closes_twice_witness :
  calls (bind (Relay_init (VInt 0x16c0) (VInt 0x05df)) (fun _ => cleanup)
              SimBoard.fresh)
  = [CallOpen (VInt 0x16c0) (VInt 0x05df); CallSetNonblocking 1; CallClose]
  /\ calls (run_exit_handlers
              (atexit_handlers
                 (final (bind (Relay_init (VInt 0x16c0) (VInt 0x05df))
                              (fun _ => cleanup) SimBoard.fresh)))
              (final (bind (Relay_init (VInt 0x16c0) (VInt 0x05df))
                           (fun _ => cleanup) SimBoard.fresh)))
     = [CallClose].
Proof.
  apply (cleanup_then_exit_closes_twice
           (VInt 0x16c0) (VInt 0x05df) SimBoard.fresh 0
           {| SimBoard.is_open := true; SimBoard.relays := 0 |}
           {| SimBoard.is_open := true; SimBoard.relays := 0 |}).
  - reflexivity.
  - reflexivity.
  - reflexivity.
Defined.
